(** * FilterModal: filter selection and download orchestration

    A shallow embedding of [src/components/FilterModal.tsx].

    The component is a React function component with two [useState] cells
    ([selectedFilter], [isDownloading]), three props ([image], [onClose],
    [onDownload]) and one asynchronous handler ([handleDownloadClick]).

    The embedding has four layers, each following the source text:
    - [Proc]: the bodies of the handlers, as terms of a small free monad whose
      operations are the calls the source makes (state setters, the props,
      [console.error], [e.stopPropagation()], [await]), with JavaScript's
      [try]/[catch]/[finally];
    - [render]: the JSX tree, reduced to what decides behaviour (tag,
      [disabled], [onClick], children);
    - [click]: React's dispatch of a click, bubbling from the target to the
      root, skipping the listener of a disabled button and honouring
      [stopPropagation];
    - [step]/[run]: the event loop, interleaving user clicks with the
      settling of the promises returned by [onDownload].

    Assumptions on what is outside the file (stated once, used throughout):
    the props are fixed for one presentation; [onClose] returns normally;
    [onDownload] returns a fresh promise, which the environment settles
    later; React commits a render between two events, so a handler reads the
    state left by the previous event.  What the owner does on [onClose] is
    not in the file: a run keeps the component mounted.  An owner that
    unmounts it at the first [onClose] only removes the later clicks from a
    run; a handler suspended at its [await] still resumes and makes the same
    calls. *)

From Stdlib Require Import String List Bool Arith Lia.
Import ListNotations.
Local Open Scope string_scope.
Local Open Scope list_scope.

(** ** Data *)

(** [interface Filter { name: string; css: string }] *)
Record Filter : Type := mkFilter { name : string; css : string }.

(** [const FILTERS: Filter[]] *)
Definition FILTERS : list Filter :=
  [ mkFilter "Original" "none";
    mkFilter "Sepia" "sepia(0.8)";
    mkFilter "Grayscale" "grayscale(1)";
    mkFilter "Vintage" "sepia(0.5) contrast(1.1) brightness(0.9) saturate(1.2)";
    mkFilter "Cold" "contrast(1.1) brightness(1.05) hue-rotate(-15deg)";
    mkFilter "Warm" "sepia(0.3) saturate(1.4) hue-rotate(-10deg) contrast(0.95)" ].

(** [FilterModalProps.image] *)
Record Image : Type := mkImage { decade : string; url : string }.

(** The value a rejected promise carries; the component only prints it. *)
Definition Reason : Type := string.

(** A promise returned by [onDownload], named by the number of the call. *)
Definition Promise : Type := nat.

Inductive Outcome : Type :=
| Resolved
| Rejected (e : Reason).

(** ** Handler bodies *)

(** The synchronous calls a handler can make. *)
Inductive Op : Type :=
| SetSelectedFilter (f : Filter)
| SetIsDownloading (b : bool)
| OnClose
| ConsoleError (msg : string) (e : Reason)
| StopPropagation.

(** A handler body: a finite tree of calls.  [Call] is
    [onDownload(decade, imageUrl, filterCss)], which yields a promise;
    [Await] suspends the handler until that promise settles. *)
Inductive Proc (A : Type) : Type :=
| Ret (a : A)
| Throw (e : Reason)
| Do (op : Op) (k : Proc A)
| Call (decadeArg imageUrlArg filterCssArg : string) (k : Promise -> Proc A)
| Await (p : Promise) (k : Outcome -> Proc A).

Arguments Ret {A} a.
Arguments Throw {A} e.
Arguments Do {A} op k.
Arguments Call {A} decadeArg imageUrlArg filterCssArg k.
Arguments Await {A} p k.

Fixpoint bind {A B : Type} (m : Proc A) (f : A -> Proc B) : Proc B :=
  match m with
  | Ret a => f a
  | Throw e => Throw e
  | Do op k => Do op (bind k f)
  | Call d u c k => Call d u c (fun p => bind (k p) f)
  | Await p k => Await p (fun o => bind (k o) f)
  end.

Declare Scope proc_scope.
Delimit Scope proc_scope with proc.
Notation "x <- m ;; k" := (bind m (fun x => k))
  (at level 61, m at next level, right associativity) : proc_scope.
Notation "m ;; k" := (bind m (fun _ => k))
  (at level 61, right associativity) : proc_scope.
Local Open Scope proc_scope.

Definition perform (op : Op) : Proc unit := Do op (Ret tt).

(** [await p]: the value of a resolved promise, the reason of a rejected one
    thrown at the [await]. *)
Definition await (p : Promise) : Proc unit :=
  Await p (fun o => match o with Resolved => Ret tt | Rejected e => Throw e end).

(** [try { body } catch (e) { handler }] *)
Fixpoint try_catch {A : Type} (body : Proc A) (handler : Reason -> Proc A) : Proc A :=
  match body with
  | Ret a => Ret a
  | Throw e => handler e
  | Do op k => Do op (try_catch k handler)
  | Call d u c k => Call d u c (fun p => try_catch (k p) handler)
  | Await p k => Await p (fun o => try_catch (k o) handler)
  end.

(** [try { body } finally { fin }]: [fin] runs on both exits and the exit of
    [body] is kept, unless [fin] itself throws. *)
Fixpoint try_finally {A : Type} (body : Proc A) (fin : Proc unit) : Proc A :=
  match body with
  | Ret a => fin ;; Ret a
  | Throw e => fin ;; Throw e
  | Do op k => Do op (try_finally k fin)
  | Call d u c k => Call d u c (fun p => try_finally (k p) fin)
  | Await p k => Await p (fun o => try_finally (k o) fin)
  end.

Definition try_catch_finally {A : Type}
  (body : Proc A) (handler : Reason -> Proc A) (fin : Proc unit) : Proc A :=
  try_finally (try_catch body handler) fin.

(** ** The component *)

(** The two [useState] cells. *)
Record Hooks : Type := mkHooks { selectedFilter : Filter; isDownloading : bool }.

(** [FILTERS[0]]; the array is a non-empty constant, so the fallback of the
    match is never taken (see [FILTERS_0_is_first]). *)
Definition FILTERS_0 : Filter :=
  match FILTERS with
  | f :: _ => f
  | [] => mkFilter "" ""
  end.

(** [useState<Filter>(FILTERS[0])], [useState(false)] *)
Definition initial_hooks : Hooks :=
  {| selectedFilter := FILTERS_0; isDownloading := false |}.

(** A DOM element of the rendered tree, reduced to what decides behaviour. *)
#[warnings="-register-all"]
Inductive Element : Type :=
| El (tag : string) (disabled : bool) (onClick : option (Proc unit))
     (children : list Element).

Section Component.

(** The [image] prop of the presentation. *)
Variable image : Image.

Definition setSelectedFilter (f : Filter) : Proc unit := perform (SetSelectedFilter f).
Definition setIsDownloading (b : bool) : Proc unit := perform (SetIsDownloading b).
Definition onClose : Proc unit := perform OnClose.
Definition onDownload (d u c : string) : Proc Promise := Call d u c (fun p => Ret p).
Definition console_error (msg : string) (e : Reason) : Proc unit :=
  perform (ConsoleError msg e).
Definition stopPropagation : Proc unit := perform StopPropagation.

(** [handleDownloadClick], closed over the state [r] of the render that
    created it. *)
Definition handleDownloadClick (r : Hooks) : Proc unit :=
  setIsDownloading true ;;
  try_catch_finally
    (p <- onDownload (decade image) (url image) (css (selectedFilter r)) ;;
     await p)
    (fun e => console_error "Download failed from modal:" e)
    (setIsDownloading false ;;
     onClose).

(** The filter option button built by [FILTERS.map] for [filter]. *)
Definition filter_button (filter : Filter) : Element :=
  El "button" false (Some (setSelectedFilter filter))
     [ El "img" false None [];
       El "p" false None [] ].

(** The JSX returned by the component.  [AnimatePresence] renders its
    child; the root of the tree is the backdrop [motion.div]. *)
Definition render (r : Hooks) : Element :=
  El "div" false (Some onClose)
   [ El "div" false (Some stopPropagation)
      [ El "h2" false None [];
        El "div" false None
         [ El "div" false None [ El "img" false None [] ];
           El "div" false None (map filter_button FILTERS) ];
        El "div" false None
         [ El "button" false (Some onClose) [];
           El "button" (isDownloading r) (Some (handleDownloadClick r)) [] ] ] ].

End Component.

(** ** Running the component *)

(** What the outside can see of a run, in the order it happened: the calls
    the handlers made, each call of [onDownload] with the promise it
    returned, and a rejection of the promise of an [async] handler that
    nothing handles. *)
Inductive Effect : Type :=
| Did (op : Op)
| Called (decadeArg imageUrlArg filterCssArg : string) (p : Promise)
| Unhandled (e : Reason).

(** A suspended [async] handler: the promise it awaits and the rest of its
    body. *)
Definition Suspended : Type := (Promise * (Outcome -> Proc unit))%type.

Record World : Type := mkWorld {
  hooks : Hooks;                 (* the state cells *)
  pending : list Suspended;      (* handlers suspended at an [await] *)
  nextPromise : Promise;         (* the promise the next [onDownload] returns *)
  propagationStopped : bool;     (* of the click being dispatched *)
  log : list Effect
}.

Definition initial_world : World :=
  {| hooks := initial_hooks; pending := []; nextPromise := 0;
     propagationStopped := false; log := [] |}.

Definition record (e : Effect) (w : World) : World :=
  {| hooks := hooks w; pending := pending w; nextPromise := nextPromise w;
     propagationStopped := propagationStopped w; log := log w ++ [e] |}.

Definition set_hooks (h : Hooks) (w : World) : World :=
  {| hooks := h; pending := pending w; nextPromise := nextPromise w;
     propagationStopped := propagationStopped w; log := log w |}.

Definition set_pending (l : list Suspended) (w : World) : World :=
  {| hooks := hooks w; pending := l; nextPromise := nextPromise w;
     propagationStopped := propagationStopped w; log := log w |}.

Definition set_propagationStopped (b : bool) (w : World) : World :=
  {| hooks := hooks w; pending := pending w; nextPromise := nextPromise w;
     propagationStopped := b; log := log w |}.

(** The effect of one synchronous call on the state.  The props and
    [console.error] only leave their mark in the log. *)
Definition apply_op (op : Op) (w : World) : World :=
  match op with
  | SetSelectedFilter f =>
      set_hooks {| selectedFilter := f; isDownloading := isDownloading (hooks w) |} w
  | SetIsDownloading b =>
      set_hooks {| selectedFilter := selectedFilter (hooks w); isDownloading := b |} w
  | OnClose => w
  | ConsoleError _ _ => w
  | StopPropagation => set_propagationStopped true w
  end.

(** Run a handler until it returns, throws or suspends at an [await]. *)
Fixpoint exec (m : Proc unit) (w : World) : World :=
  match m with
  | Ret _ => w
  | Throw e => record (Unhandled e) w
  | Do op k => exec k (record (Did op) (apply_op op w))
  | Call d u c k =>
      let p := nextPromise w in
      exec (k p)
           (record (Called d u c p)
              {| hooks := hooks w; pending := pending w; nextPromise := S p;
                 propagationStopped := propagationStopped w; log := log w |})
  | Await p k => set_pending (pending w ++ [(p, k)]) w
  end.

(** React attaches no mouse listener to a disabled [button], [input],
    [select] or [textarea]. *)
Definition interactive (tag : string) : bool :=
  (tag =? "button") || (tag =? "input") || (tag =? "select") || (tag =? "textarea").

Definition listener (e : Element) : list (Proc unit) :=
  match e with
  | El tag disabled onClick _ =>
      if interactive tag && disabled then []
      else match onClick with Some h => [h] | None => [] end
  end.

(** The click listeners on the way from the element at [path] (a list of
    child positions, from the root) up to the root; [None] when the tree has
    no element there. *)
Fixpoint listeners (path : list nat) (e : Element) : option (list (Proc unit)) :=
  match path with
  | [] => Some (listener e)
  | i :: rest =>
      match e with
      | El _ _ _ children =>
          match nth_error children i with
          | Some c =>
              match listeners rest c with
              | Some hs => Some (hs ++ listener e)
              | None => None
              end
          | None => None
          end
      end
  end.

(** Bubbling: the listeners run in order until one stops the propagation. *)
Fixpoint bubble (hs : list (Proc unit)) (w : World) : World :=
  match hs with
  | [] => w
  | h :: rest => if propagationStopped w then w else bubble rest (exec h w)
  end.

Inductive Event : Type :=
| Click (path : list nat)                (* the user clicks the element at [path] *)
| Settle (p : Promise) (o : Outcome).    (* the export settles promise [p] *)

Section Loop.

Variable image : Image.

Definition click (path : list nat) (w : World) : World :=
  match listeners path (render image (hooks w)) with
  | Some hs => bubble hs (set_propagationStopped false w)
  | None => w
  end.

(** Every handler awaiting [p] resumes, in the order they suspended. *)
Definition settle (p : Promise) (o : Outcome) (w : World) : World :=
  let awaiting := filter (fun s => fst s =? p)%nat (pending w) in
  let others := filter (fun s => negb (fst s =? p)%nat) (pending w) in
  fold_left (fun w' s => exec (snd s o) w') awaiting (set_pending others w).

Definition step (w : World) (ev : Event) : World :=
  match ev with
  | Click path => click path w
  | Settle p o => settle p o w
  end.

Definition run (w : World) (evs : list Event) : World := fold_left step evs w.

End Loop.

(** Positions in the rendered tree. *)
Definition backdrop : list nat := [].
Definition panel : list nat := [0].
Definition filter_option (i : nat) : list nat := [0; 1; 1; i].
Definition cancel_button : list nat := [0; 2; 0].
Definition download_button : list nat := [0; 2; 1].

(** ** Observations on the log *)

Definition is_close (e : Effect) : bool :=
  match e with Did OnClose => true | _ => false end.

Definition is_unhandled (e : Effect) : bool :=
  match e with Unhandled _ => true | _ => false end.

(** How often [onClose] was invoked. *)
Definition closes (l : list Effect) : nat := length (filter is_close l).

(** The calls of [onDownload]: its three arguments, in order. *)
Definition exports (l : list Effect) : list (string * string * string) :=
  flat_map (fun e => match e with Called d u c _ => [(d, u, c)] | _ => [] end) l.

(** The faults that escaped a handler. *)
Definition faults (l : list Effect) : list Effect := filter is_unhandled l.

(** The rest of [handleDownloadClick] after its [await]: the [catch] and the
    [finally] block around the settled promise. *)
Definition handleDownloadClick_resume (o : Outcome) : Proc unit :=
  try_catch_finally
    (match o with Resolved => Ret tt | Rejected e => Throw e end)
    (fun e => console_error "Download failed from modal:" e)
    (setIsDownloading false ;; onClose).

(** Equality of positions. *)
Fixpoint path_eqb (p q : list nat) : bool :=
  match p, q with
  | [], [] => true
  | i :: p', j :: q' => (i =? j)%nat && path_eqb p' q'
  | _, _ => false
  end.

(** The clicks whose listener chain reaches an [onClick={onClose}]: on the
    backdrop itself and on the Cancel button. *)
Definition closing_click (path : list nat) : bool :=
  path_eqb path backdrop || path_eqb path cancel_button.

Definition is_closing_click (ev : Event) : bool :=
  match ev with
  | Click path => closing_click path
  | Settle _ _ => false
  end.

(** How many of the events are such clicks. *)
Definition closing_clicks (evs : list Event) : nat :=
  length (filter is_closing_click evs).

(** What a click can amount to, by the element it lands on. *)
Inductive ClickKind : Type :=
| NoElement
| OnBackdrop
| OnPanel
| OnFilter (f : Filter)
| OnCancel
| OnDownloadButton.

(** A fresh click event: its propagation is not stopped. *)
Definition reset (w : World) : World := set_propagationStopped false w.

(** What the [catch] block prints, by outcome. *)
Definition caught (o : Outcome) : list Effect :=
  match o with
  | Resolved => []
  | Rejected e => [Did (ConsoleError "Download failed from modal:" e)]
  end.

(** A presentation used in the examples. *)
Definition sample_image : Image := mkImage "1950s" "blob:generated/1950s.jpg".

(** A filter that is not an entry of [FILTERS]. *)
Definition foreign_filter : Filter := mkFilter "Neon" "invert(1)".

(** The invariant of the reachable states: the selection is a catalogue
    entry, no fault has escaped, and the download flag is up exactly while
    one [handleDownloadClick] is suspended at its [await]. *)
Definition Inv (w : World) : Prop :=
  In (selectedFilter (hooks w)) FILTERS
  /\ faults (log w) = []
  /\ match pending w with
     | [] => isDownloading (hooks w) = false
     | [(p, k)] => isDownloading (hooks w) = true /\ k = handleDownloadClick_resume
     | _ => False
     end.

(** ** The rendered tree with its attributes

    [render] keeps of the JSX what decides the dispatch of a click.  [view]
    is the same tree with what the user is shown: every attribute whose value
    depends on a prop or on the state, the accessibility attributes, the
    keys and the text.  Class names that are constants and the [motion]
    props are left out. *)

#[warnings="-register-all"]
Inductive Node : Type :=
| Nd (tag : string) (attrs : list (string * string)) (text : string)
     (onClick : option (Proc unit)) (children : list Node).

(** A boolean prop, as its value is written. *)
Definition string_of_bool (b : bool) : string := if b then "true" else "false".

(** The option button of [filter], in the render with state [r]:
    [key={filter.name}], the ring class and [aria-pressed] decided by
    [selectedFilter.name === filter.name], the thumbnail and the label. *)
Definition option_button (image : Image) (r : Hooks) (filter : Filter) : Node :=
  Nd "button"
     [ ("key", name filter);
       ("className",
        ("aspect-square w-full flex flex-col items-center justify-end p-2 rounded-md transition-all duration-200 focus:outline-none ring-2 "
         ++ (if name (selectedFilter r) =? name filter
             then "ring-yellow-400"
             else "ring-transparent hover:ring-white/50"))%string);
       ("aria-pressed", string_of_bool (name (selectedFilter r) =? name filter)) ]
     ""
     (Some (setSelectedFilter filter))
     [ Nd "img"
          [ ("src", url image);
            ("alt", (name filter ++ " filter preview")%string);
            ("style.filter", css filter);
            ("aria-hidden", "true") ]
          "" None [];
       Nd "p" [] (name filter) None [] ].

(** The JSX returned by the component. *)
Definition view (image : Image) (r : Hooks) : Node :=
  Nd "div" [ ("aria-modal", "true"); ("role", "dialog") ] "" (Some onClose)
   [ Nd "div" [ ("aria-labelledby", "filter-modal-title") ] "" (Some stopPropagation)
      [ Nd "h2" [ ("id", "filter-modal-title") ] "Apply a Filter" None [];
        Nd "div" [] "" None
         [ Nd "div" [] "" None
            [ Nd "img"
                 [ ("src", url image);
                   ("alt", ("Preview for " ++ decade image ++ " with "
                            ++ name (selectedFilter r) ++ " filter")%string);
                   ("style.filter", css (selectedFilter r)) ]
                 "" None [] ];
           Nd "div" [ ("role", "group"); ("aria-label", "Filter options") ] "" None
              (map (option_button image r) FILTERS) ];
        Nd "div" [] "" None
         [ Nd "button" [] "Cancel" (Some onClose) [];
           Nd "button" [ ("disabled", string_of_bool (isDownloading r)) ]
              (if isDownloading r then "Downloading..." else "Download")
              (Some (handleDownloadClick image r)) [] ] ] ].

(** The value of an attribute, if the element has it. *)
Fixpoint attr_in (key : string) (attrs : list (string * string)) : option string :=
  match attrs with
  | [] => None
  | (k, v) :: rest => if k =? key then Some v else attr_in key rest
  end.

Definition attr (key : string) (n : Node) : option string :=
  match n with Nd _ attrs _ _ _ => attr_in key attrs end.

Definition node_text (n : Node) : string :=
  match n with Nd _ _ text _ _ => text end.

Definition node_children (n : Node) : list Node :=
  match n with Nd _ _ _ _ children => children end.

(** The element at a position, if there is one. *)
Fixpoint node_at (path : list nat) (n : Node) : option Node :=
  match path with
  | [] => Some n
  | i :: rest =>
      match nth_error (node_children n) i with
      | Some c => node_at rest c
      | None => None
      end
  end.

(** What [render] keeps of a node. *)
Fixpoint erase (n : Node) : Element :=
  match n with
  | Nd tag attrs _ onClick children =>
      El tag
         (match attr_in "disabled" attrs with Some v => v =? "true" | None => false end)
         onClick (map erase children)
  end.

(** More positions in the rendered tree. *)
Definition preview_image : list nat := [0; 1; 0; 0].
Definition filter_options : list nat := [0; 1; 1].

(** The option buttons shown as pressed. *)
Definition pressed (n : Node) : bool :=
  match attr "aria-pressed" n with
  | Some v => v =? "true"
  | None => false
  end.

Definition pressed_options (v : Node) : list Node :=
  match node_at filter_options v with
  | Some group => filter pressed (node_children group)
  | None => []
  end.

(** The filter a click at [path] selects: the entry of the option button the
    click lands on, or inside of which it lands (its thumbnail, its label). *)
Definition selected_by (path : list nat) : option Filter :=
  match path with
  | 0 :: 1 :: 1 :: i :: inside =>
      match inside with
      | [] | [0] | [1] => nth_error FILTERS i
      | _ => None
      end
  | _ => None
  end.

(** The selection after a run of events, read off the events alone: the
    filter of the last click that selects one, from [start]. *)
Definition last_selected (start : Filter) (evs : list Event) : Filter :=
  fold_left
    (fun f ev =>
       match ev with
       | Click path => match selected_by path with Some g => g | None => f end
       | Settle _ _ => f
       end)
    evs start.

(** The arguments of the calls of [setIsDownloading], in order. *)
Definition busy_flags (l : list Effect) : list bool :=
  flat_map (fun e => match e with Did (SetIsDownloading b) => [b] | _ => [] end) l.

(** [n] times on, then off. *)
Definition on_off (n : nat) : list bool := concat (repeat [true; false] n).

(** Whether a handler is suspended at its [await]. *)
Definition in_flight_now (w : World) : bool :=
  match pending w with [] => false | _ :: _ => true end.

(** A well-formed call of [onDownload]: the image of the presentation and
    the transform of a catalogue entry. *)
Definition export_ok (image : Image) (x : string * string * string) : Prop :=
  fst (fst x) = decade image /\ snd (fst x) = url image
  /\ In (snd x) (map css FILTERS).

(** * Properties *)

Section Properties.

Variable image : Image.

(** The listeners a click runs, by the element it lands on. *)
Definition click_result (k : ClickKind) (w : World) : World :=
  match k with
  | NoElement => w
  | OnBackdrop => exec onClose (reset w)
  | OnPanel => exec stopPropagation (reset w)
  | OnFilter f => exec stopPropagation (exec (setSelectedFilter f) (reset w))
  | OnCancel => exec stopPropagation (exec onClose (reset w))
  | OnDownloadButton =>
      if isDownloading (hooks w) then exec stopPropagation (reset w)
      else exec stopPropagation (exec (handleDownloadClick image (hooks w)) (reset w))
  end.

(** The kinds whose listeners include [onClose]. *)
Definition kind_closes (k : ClickKind) : bool :=
  match k with OnBackdrop | OnCancel => true | _ => false end.

(** Case analysis on a position, as deep as the rendered tree goes. *)
Ltac split_path :=
  repeat (cbn; match goal with
    | |- context [nth_error _ ?i] => is_var i; destruct i
    | |- context [listeners ?p _] => is_var p; destruct p
    end).

(** Every click, wherever it lands, is of one of the kinds above. *)
Lemma click_classify (path : list nat) (w : World) :
  exists k, click image path w = click_result k w
            /\ kind_closes k = closing_click path
            /\ match k with OnFilter f => In f FILTERS | _ => True end.
Proof.
  unfold click, render.
  destruct w as [[sf dl] pd np ps lg].
  split_path.
  all: try (exists NoElement; repeat split; reflexivity).
  all: try (exists OnBackdrop; repeat split; reflexivity).
  all: try (exists OnPanel; repeat split; reflexivity).
  all: try (exists OnCancel; repeat split; reflexivity).
  all: try (eexists (OnFilter _); split; [reflexivity| split; [reflexivity| cbn; tauto]]).
  all: try (exists OnDownloadButton; destruct dl; repeat split; reflexivity).
Qed.

Lemma faults_app (l1 l2 : list Effect) : faults (l1 ++ l2) = faults l1 ++ faults l2.
Proof. apply filter_app. Qed.

Lemma closes_app (l1 l2 : list Effect) : closes (l1 ++ l2) = closes l1 + closes l2.
Proof. unfold closes. now rewrite filter_app, length_app. Qed.

Lemma exports_app (l1 l2 : list Effect) : exports (l1 ++ l2) = exports l1 ++ exports l2.
Proof. apply flat_map_app. Qed.

Lemma Inv_initial : Inv initial_world.
Proof. repeat split; cbn; auto. Qed.

Lemma Inv_click (path : list nat) (w : World) : Inv w -> Inv (click image path w).
Proof.
  destruct (click_classify path w) as (k & -> & _ & Hk).
  destruct w as [[sf dl] pd np ps lg]. unfold Inv.
  cbn -[In FILTERS faults]. intros (Hin & Hf & Hp).
  destruct k; [ | | | | | destruct dl ];
    cbn -[In FILTERS faults]; rewrite ?faults_app, ?Hf;
    repeat split; auto.
  destruct pd as [|[q k] [|]]; cbn in *; intuition discriminate.
Qed.

Lemma settle_idle (p : Promise) (o : Outcome) (w : World) :
  pending w = [] -> settle p o w = w.
Proof. destruct w; cbn; intros ->; reflexivity. Qed.

Lemma settle_other (p q : Promise) (k : Outcome -> Proc unit) (o : Outcome) (w : World) :
  pending w = [(q, k)] -> q <> p -> settle p o w = w.
Proof.
  destruct w; cbn; intros -> Hq. unfold settle; cbn.
  apply Nat.eqb_neq in Hq. rewrite Hq. reflexivity.
Qed.

Lemma settle_awaited (p : Promise) (k : Outcome -> Proc unit) (o : Outcome) (w : World) :
  pending w = [(p, k)] -> settle p o w = exec (k o) (set_pending [] w).
Proof.
  destruct w; cbn; intros ->. unfold settle; cbn.
  rewrite Nat.eqb_refl. reflexivity.
Qed.

Lemma Inv_settle (p : Promise) (o : Outcome) (w : World) : Inv w -> Inv (settle p o w).
Proof.
  intros HI. pose proof HI as (Hin & Hf & Hp).
  destruct (pending w) as [|[q k] [|]] eqn:E; try tauto.
  - now rewrite settle_idle.
  - destruct (Nat.eq_dec q p) as [->|Hne].
    + rewrite (settle_awaited _ _ _ _ E). destruct Hp as [_ ->].
      destruct w as [[sf dl] pd np ps lg]. cbn -[In FILTERS faults] in *.
      unfold Inv.
      destruct o; cbn -[In FILTERS faults]; rewrite ?faults_app, ?Hf; auto.
    + now rewrite (settle_other _ _ _ _ _ E Hne).
Qed.

Lemma Inv_step (ev : Event) (w : World) : Inv w -> Inv (step image w ev).
Proof. destruct ev; [apply Inv_click | apply Inv_settle]. Qed.

Lemma Inv_run (evs : list Event) (w : World) : Inv w -> Inv (run image w evs).
Proof.
  revert w. induction evs as [|ev evs IH]; intros w HI; cbn.
  - exact HI.
  - apply IH, Inv_step, HI.
Qed.

Lemma Inv_reachable (evs : list Event) : Inv (run image initial_world evs).
Proof. apply Inv_run, Inv_initial. Qed.

(** Each step keeps the balance between the calls of [onClose] and their
    two causes. *)
Lemma close_balance_step (ev : Event) (w : World) :
  Inv w ->
  closes (log (step image w ev)) + length (pending (step image w ev))
    + length (exports (log w))
  = closes (log w) + length (pending w)
    + length (exports (log (step image w ev))) + closing_clicks [ev].
Proof.
  intros (_ & _ & Hp). destruct ev as [path|p o].
  - unfold step, closing_clicks. cbn [filter is_closing_click].
    destruct (click_classify path w) as (k & -> & <- & _).
    destruct w as [[sf dl] pd np ps lg].
    destruct k; [ | | | | | destruct dl ]; cbn -[closes exports];
      rewrite ?closes_app, ?exports_app, ?length_app; cbn; lia.
  - unfold step, closing_clicks. cbn [filter is_closing_click length].
    destruct (pending w) as [|[q k] [|]] eqn:E; try tauto.
    + rewrite settle_idle by assumption. rewrite E. cbn. lia.
    + destruct (Nat.eq_dec q p) as [->|Hne].
      * rewrite (settle_awaited _ _ _ _ E). destruct Hp as [_ ->].
        destruct w as [[sf dl] pd np ps lg]. cbn in E. subst pd.
        destruct o; cbn -[closes exports];
          rewrite ?closes_app, ?exports_app, ?length_app; cbn; lia.
      * rewrite (settle_other _ _ _ _ _ E Hne). rewrite E. cbn. lia.
Qed.

Lemma closing_clicks_cons (ev : Event) (evs : list Event) :
  closing_clicks (ev :: evs) = closing_clicks [ev] + closing_clicks evs.
Proof.
  unfold closing_clicks. cbn [filter].
  destruct (is_closing_click ev); reflexivity.
Qed.

Lemma close_balance_run (evs : list Event) (w : World) :
  Inv w ->
  closes (log (run image w evs)) + length (pending (run image w evs))
    + length (exports (log w))
  = closes (log w) + length (pending w)
    + length (exports (log (run image w evs))) + closing_clicks evs.
Proof.
  revert w. induction evs as [|ev evs IH]; intros w HI.
  - cbn. lia.
  - rewrite closing_clicks_cons. cbn [run fold_left].
    pose proof (close_balance_step ev w HI).
    pose proof (IH _ (Inv_step ev w HI)). unfold run in *. lia.
Qed.

(** What the two download steps do to a world, written out. *)
Lemma click_download_idle (w : World) :
  isDownloading (hooks w) = false ->
  click image download_button w
  = {| hooks := {| selectedFilter := selectedFilter (hooks w); isDownloading := true |};
       pending := pending w ++ [(nextPromise w, handleDownloadClick_resume)];
       nextPromise := S (nextPromise w);
       propagationStopped := true;
       log := log w ++ [Did (SetIsDownloading true);
                        Called (decade image) (url image)
                               (css (selectedFilter (hooks w))) (nextPromise w);
                        Did StopPropagation] |}.
Proof.
  destruct w as [[sf dl] pd np ps lg]. cbn. intros ->. cbn.
  unfold record, set_pending, set_propagationStopped. cbn.
  rewrite <- !app_assoc. reflexivity.
Qed.

Lemma click_download_busy (w : World) :
  isDownloading (hooks w) = true ->
  click image download_button w = exec stopPropagation (reset w).
Proof. destruct w as [[sf dl] pd np ps lg]. cbn. intros ->. reflexivity. Qed.

Lemma exec_resume (o : Outcome) (w : World) :
  exec (handleDownloadClick_resume o) w
  = {| hooks := {| selectedFilter := selectedFilter (hooks w); isDownloading := false |};
       pending := pending w;
       nextPromise := nextPromise w;
       propagationStopped := propagationStopped w;
       log := log w ++ caught o ++ [Did (SetIsDownloading false); Did OnClose] |}.
Proof.
  destruct w as [[sf dl] pd np ps lg].
  destruct o; cbn; unfold record, set_hooks; cbn;
    rewrite <- ?app_assoc; reflexivity.
Qed.

Lemma in_flight (p : Promise) (w : World) :
  Inv w -> In p (map fst (pending w)) ->
  pending w = [(p, handleDownloadClick_resume)] /\ isDownloading (hooks w) = true.
Proof.
  intros (_ & _ & Hp) Hin.
  destruct (pending w) as [|[q k] [|]]; cbn in *; try tauto.
  destruct Hp as [Hd ->]. destruct Hin as [->|[]]. auto.
Qed.

(** A click made while an export is in flight starts no export and leaves
    the suspended handler where it is. *)
Lemma click_in_flight (path : list nat) (w : World) :
  isDownloading (hooks w) = true ->
  isDownloading (hooks (click image path w)) = true
  /\ pending (click image path w) = pending w
  /\ nextPromise (click image path w) = nextPromise w
  /\ exports (log (click image path w)) = exports (log w).
Proof.
  destruct (click_classify path w) as (k & -> & _ & _).
  destruct w as [[sf dl] pd np ps lg]. cbn. intros ->.
  destruct k; cbn -[exports]; rewrite ?exports_app; cbn;
    rewrite ?app_nil_r; auto.
Qed.

Lemma clicks_in_flight (paths : list (list nat)) (w : World) :
  isDownloading (hooks w) = true ->
  isDownloading (hooks (run image w (map Click paths))) = true
  /\ pending (run image w (map Click paths)) = pending w
  /\ nextPromise (run image w (map Click paths)) = nextPromise w
  /\ exports (log (run image w (map Click paths))) = exports (log w).
Proof.
  revert w. induction paths as [|path paths IH]; intros w Hd; cbn; auto.
  destruct (click_in_flight path w Hd) as (H1 & H2 & H3 & H4).
  destruct (IH _ H1) as (G1 & G2 & G3 & G4). unfold run in *.
  rewrite G2, G3, G4. auto.
Qed.

Lemma run_app (w : World) (evs1 evs2 : list Event) :
  run image w (evs1 ++ evs2) = run image (run image w evs1) evs2.
Proof. apply fold_left_app. Qed.

(** The option button at position [i] selects the [i]-th catalogue entry;
    where the catalogue has no entry, the tree has no button. *)
Lemma click_filter_option (i : nat) (w : World) :
  click image (filter_option i) w
  = match nth_error FILTERS i with
    | Some f => exec stopPropagation (exec (setSelectedFilter f) (reset w))
    | None => w
    end.
Proof.
  unfold click, render, filter_option.
  do 6 (destruct i as [|i]; [reflexivity|]). destruct i; reflexivity.
Qed.

(** C1. Whatever the outcome of the export (the promise of [onDownload]
    resolved or rejected), when a suspended [handleDownloadClick] is resumed
    by it: [isDownloading] is false afterwards; the log grows by the [catch]
    block's print (on rejection only), then [setIsDownloading(false)], then
    [onClose()], in this order; and no fault has escaped the handler. *)
Theorem download_cleanup (evs : list Event) (p : Promise) (o : Outcome) :
  In p (map fst (pending (run image initial_world evs))) ->
  isDownloading (hooks (step image (run image initial_world evs) (Settle p o))) = false
  /\ pending (step image (run image initial_world evs) (Settle p o)) = []
  /\ log (step image (run image initial_world evs) (Settle p o))
     = log (run image initial_world evs)
       ++ caught o ++ [Did (SetIsDownloading false); Did OnClose]
  /\ faults (log (step image (run image initial_world evs) (Settle p o))) = [].
Proof.
  intros Hin.
  pose proof (Inv_reachable (evs ++ [Settle p o])) as (_ & Hf & _).
  rewrite run_app in Hf. cbn [run fold_left] in Hf.
  destruct (in_flight p _ (Inv_reachable evs) Hin) as [Hp _].
  cbn [step] in *. rewrite (settle_awaited _ _ _ _ Hp) in *.
  rewrite exec_resume in *. cbn in *. auto.
Qed.

(** C2. In every reachable state at most one export is in flight; and
    while [isDownloading] is true, exactly one is, and a click on the
    Download button does not run [handleDownloadClick]: the button is
    disabled, only the panel's [stopPropagation] runs, [onDownload] is not
    called and the suspended handler is left alone. *)
Theorem download_mutual_exclusion (evs : list Event) :
  length (pending (run image initial_world evs)) <= 1
  /\ (isDownloading (hooks (run image initial_world evs)) = true ->
      length (pending (run image initial_world evs)) = 1
      /\ click image download_button (run image initial_world evs)
         = exec stopPropagation (reset (run image initial_world evs))
      /\ exports (log (click image download_button (run image initial_world evs)))
         = exports (log (run image initial_world evs))
      /\ pending (click image download_button (run image initial_world evs))
         = pending (run image initial_world evs)).
Proof.
  pose proof (Inv_reachable evs) as (_ & _ & Hp). split.
  - destruct (pending (run image initial_world evs)) as [|[q k] [|]]; cbn in *;
      try tauto; lia.
  - intros Hd.
    destruct (click_in_flight download_button _ Hd) as (_ & H2 & _ & H4).
    repeat split; auto using click_download_busy.
    destruct (pending (run image initial_world evs)) as [|[q k] [|]]; cbn in *;
      try tauto. congruence.
Qed.

(** C3 (as amended). [onClose] is invoked once by every click on the
    backdrop or on Cancel and once by every export when it settles: in any
    reachable state the invocations, plus the exports still in flight, are
    as many as those clicks plus the calls of [onDownload].  Nothing bounds
    the number by one. *)
Theorem close_signal_count (evs : list Event) :
  closes (log (run image initial_world evs))
    + length (pending (run image initial_world evs))
  = closing_clicks evs + length (exports (log (run image initial_world evs))).
Proof.
  pose proof (close_balance_run evs initial_world Inv_initial) as H.
  cbn in H. lia.
Qed.

(** C4. A fresh session selects the first catalogue entry, which is the
    filter named Original with the transform none, and is not exporting. *)
Theorem initial_session :
  selectedFilter (hooks (run image initial_world [])) = mkFilter "Original" "none"
  /\ nth_error FILTERS 0 = Some (selectedFilter (hooks (run image initial_world [])))
  /\ isDownloading (hooks (run image initial_world [])) = false
  /\ pending (run image initial_world []) = [].
Proof. repeat split. Qed.

(** C5. From a reachable idle state with [f] selected, click Download, then
    click anything any number of times (in particular the option button of
    another filter [g], which does become the selection), then let the
    export settle: the one call of [onDownload] this adds to the log carries
    the transform of [f]. *)
Theorem export_snapshot
  (evs : list Event) (paths : list (list nat)) (j : nat) (g : Filter) (o : Outcome) :
  isDownloading (hooks (run image initial_world evs)) = false ->
  nth_error FILTERS j = Some g ->
  selectedFilter
    (hooks (run image (run image initial_world evs)
              [Click download_button; Click (filter_option j)])) = g
  /\ exports
       (log (run image (run image initial_world evs)
               ([Click download_button; Click (filter_option j)]
                ++ map Click paths
                ++ [Settle (nextPromise (run image initial_world evs)) o])))
     = exports (log (run image initial_world evs))
       ++ [(decade image, url image,
            css (selectedFilter (hooks (run image initial_world evs))))].
Proof.
  set (w := run image initial_world evs). intros Hidle Hj.
  assert (Hw : Inv w) by apply Inv_reachable.
  assert (Hpd : pending w = []).
  { destruct Hw as (_ & _ & Hp).
    destruct (pending w) as [|[q k] [|]]; try tauto.
    destruct Hp; congruence. }
  set (w1 := click image download_button w).
  assert (E1 : w1 = click image download_button w) by reflexivity.
  rewrite (click_download_idle w Hidle) in E1.
  assert (Hd1 : isDownloading (hooks w1) = true) by (rewrite E1; reflexivity).
  split.
  - cbn [run fold_left step]. fold w1.
    rewrite click_filter_option, Hj. rewrite E1. reflexivity.
  - change ([Click download_button; Click (filter_option j)] ++ map Click paths
            ++ [Settle (nextPromise w) o])
      with (Click download_button
              :: (map Click (filter_option j :: paths) ++ [Settle (nextPromise w) o])).
    cbn [run fold_left step]. fold w1.
    change (fold_left (step image)
              (map Click (filter_option j :: paths) ++ [Settle (nextPromise w) o]) w1)
      with (run image w1 (map Click (filter_option j :: paths)
                          ++ [Settle (nextPromise w) o])).
    rewrite run_app.
    destruct (clicks_in_flight (filter_option j :: paths) w1 Hd1) as (_ & G2 & _ & G4).
    set (w2 := run image w1 (map Click (filter_option j :: paths))) in *.
    cbn [run fold_left step].
    assert (Hp2 : pending w2 = [(nextPromise w, handleDownloadClick_resume)]).
    { rewrite G2, E1. cbn. now rewrite Hpd. }
    rewrite (settle_awaited _ _ _ _ Hp2), exec_resume. cbn [log set_pending].
    rewrite exports_app, G4, E1. cbn [log]. rewrite exports_app.
    destruct o; cbn; rewrite app_nil_r; reflexivity.
Qed.

(** C6. From any state with [isDownloading] false, a click on the Download
    button appends to the log, in this order: [setIsDownloading(true)], one
    call [onDownload(image.decade, image.url, selectedFilter.css)], and the
    panel's [stopPropagation]; the flag is then true and the handler is
    suspended on the promise that call returned. *)
Theorem download_invokes_export (w : World) :
  isDownloading (hooks w) = false ->
  log (click image download_button w)
  = log w ++ [Did (SetIsDownloading true);
              Called (decade image) (url image)
                     (css (selectedFilter (hooks w))) (nextPromise w);
              Did StopPropagation]
  /\ isDownloading (hooks (click image download_button w)) = true
  /\ pending (click image download_button w)
     = pending w ++ [(nextPromise w, handleDownloadClick_resume)].
Proof. intros Hd. rewrite (click_download_idle w Hd). repeat split. Qed.

(** C7. Clicking the option button of a catalogue entry [f] twice in a row:
    after the first click [f] is selected, and the second click changes
    neither state cell nor the suspended handlers, invokes neither prop and
    lets no fault escape. *)
Theorem select_idempotent (w : World) (i : nat) (f : Filter) :
  nth_error FILTERS i = Some f ->
  selectedFilter (hooks (click image (filter_option i) w)) = f
  /\ hooks (click image (filter_option i) (click image (filter_option i) w))
     = hooks (click image (filter_option i) w)
  /\ pending (click image (filter_option i) (click image (filter_option i) w))
     = pending (click image (filter_option i) w)
  /\ closes (log (click image (filter_option i) (click image (filter_option i) w)))
     = closes (log (click image (filter_option i) w))
  /\ exports (log (click image (filter_option i) (click image (filter_option i) w)))
     = exports (log (click image (filter_option i) w))
  /\ faults (log (click image (filter_option i) (click image (filter_option i) w)))
     = faults (log (click image (filter_option i) w)).
Proof.
  intros Hi. rewrite !click_filter_option, Hi.
  destruct w as [[sf dl] pd np ps lg].
  cbn -[closes exports faults].
  rewrite ?closes_app, ?exports_app, ?faults_app. cbn.
  rewrite ?app_nil_r, ?Nat.add_0_r. repeat split.
Qed.

(** C8. A click on any option button, and the selection setter itself for
    any filter, leave [isDownloading] as it was, and with it the suspended
    handlers and the calls of [onDownload]. *)
Theorem select_preserves_isDownloading (w : World) (i : nat) (f : Filter) :
  isDownloading (hooks (click image (filter_option i) w)) = isDownloading (hooks w)
  /\ pending (click image (filter_option i) w) = pending w
  /\ exports (log (click image (filter_option i) w)) = exports (log w)
  /\ isDownloading (hooks (exec (setSelectedFilter f) w)) = isDownloading (hooks w).
Proof.
  rewrite click_filter_option.
  destruct w as [[sf dl] pd np ps lg].
  destruct (nth_error FILTERS i); cbn -[exports];
    rewrite ?exports_app; cbn; rewrite ?app_nil_r; repeat split.
Qed.

(** C9 (as amended). In every reachable state the selection is a catalogue
    entry: the tree has one option button per entry and none beyond them (a
    click where no button is changes nothing).  The selection handler itself
    has no membership guard: run for any filter [g], it stores [g] as the
    selection and lets no fault escape. *)
Theorem selection_membership (evs : list Event) (w : World) (i : nat) (g : Filter) :
  In (selectedFilter (hooks (run image initial_world evs))) FILTERS
  /\ (nth_error FILTERS i = None -> click image (filter_option i) w = w)
  /\ selectedFilter (hooks (exec (setSelectedFilter g) w)) = g
  /\ faults (log (exec (setSelectedFilter g) w)) = faults (log w).
Proof.
  split; [apply Inv_reachable|]. split.
  - intros Hi. now rewrite click_filter_option, Hi.
  - destruct w as [[sf dl] pd np ps lg]. cbn -[faults].
    rewrite faults_app. cbn. rewrite app_nil_r. auto.
Qed.

(** C10. Neither step of the download path changes the selection: not the
    click on the Download button, whatever the state, and not the settling
    of a promise, whatever the outcome, in any reachable state; so a
    download started in a reachable state and settled at once ends with the
    selection it started with. *)
Theorem download_preserves_selection
  (evs : list Event) (w : World) (p : Promise) (o : Outcome) :
  selectedFilter (hooks (click image download_button w)) = selectedFilter (hooks w)
  /\ selectedFilter (hooks (settle p o (run image initial_world evs)))
     = selectedFilter (hooks (run image initial_world evs))
  /\ selectedFilter
       (hooks (run image (run image initial_world evs)
                 [Click download_button; Settle p o]))
     = selectedFilter (hooks (run image initial_world evs)).
Proof.
  assert (Hclick : forall v, selectedFilter (hooks (click image download_button v))
                             = selectedFilter (hooks v)).
  { intros v. destruct (isDownloading (hooks v)) eqn:E.
    - rewrite (click_download_busy v E). destruct v as [[sf dl] pd np ps lg]. reflexivity.
    - rewrite (click_download_idle v E). reflexivity. }
  assert (Hsettle : forall v, Inv v -> selectedFilter (hooks (settle p o v))
                                       = selectedFilter (hooks v)).
  { intros v (_ & _ & Hp).
    destruct (pending v) as [|[q k] [|]] eqn:E; try tauto.
    - now rewrite settle_idle.
    - destruct (Nat.eq_dec q p) as [->|Hne].
      + rewrite (settle_awaited _ _ _ _ E). destruct Hp as [_ ->].
        rewrite exec_resume. destruct v as [[sf dl] pd np ps lg]. reflexivity.
      + now rewrite (settle_other _ _ _ _ _ E Hne). }
  split; [apply Hclick|]. split; [apply Hsettle, Inv_reachable|].
  cbn [run fold_left step].
  rewrite Hsettle by (apply Inv_click, Inv_reachable). apply Hclick.
Qed.

End Properties.

(** * Instances *)

(** C1 at work: one click on Download, then the export rejects. *)
Lemma download_cleanup_witness :
  In 0 (map fst (pending (run sample_image initial_world [Click download_button])))
  /\ (isDownloading
        (hooks (step sample_image
                  (run sample_image initial_world [Click download_button])
                  (Settle 0 (Rejected "offline")))) = false
      /\ pending (step sample_image
                    (run sample_image initial_world [Click download_button])
                    (Settle 0 (Rejected "offline"))) = []
      /\ log (step sample_image
                (run sample_image initial_world [Click download_button])
                (Settle 0 (Rejected "offline")))
         = log (run sample_image initial_world [Click download_button])
           ++ caught (Rejected "offline")
           ++ [Did (SetIsDownloading false); Did OnClose]
      /\ faults (log (step sample_image
                        (run sample_image initial_world [Click download_button])
                        (Settle 0 (Rejected "offline")))) = []).
Proof.
  split.
  - left. reflexivity.
  - apply (download_cleanup sample_image [Click download_button] 0 (Rejected "offline")).
    left. reflexivity.
Defined.

(** C2 at work: a second click on Download while the first export is in
    flight. *)
Lemma download_mutual_exclusion_witness :
  isDownloading (hooks (run sample_image initial_world [Click download_button])) = true
  /\ exports (log (run sample_image initial_world
                     [Click download_button; Click download_button]))
     = [("1950s", "blob:generated/1950s.jpg", "none")].
Proof.
  split.
  - reflexivity.
  - destruct (download_mutual_exclusion sample_image [Click download_button])
      as (_ & H).
    destruct (H eq_refl) as (_ & _ & H3 & _).
    exact H3.
Defined.

(** C3, the claim as written fails: the user clicks Download, then Cancel
    while the export is in flight, then the export resolves; [onClose] has
    been invoked twice, and no user event came after the first of them. *)
Lemma cancel_during_export_closes_twice :
  closes (log (run sample_image initial_world
                 [Click download_button; Click cancel_button; Settle 0 Resolved]))
  = 2.
Proof. reflexivity. Qed.

(** C5 at work: Sepia is selected, the download starts, the user clicks
    Download again and two other filters, the export resolves. *)
Lemma export_snapshot_witness :
  (isDownloading (hooks (run sample_image initial_world [Click (filter_option 1)]))
   = false
   /\ nth_error FILTERS 2 = Some (mkFilter "Grayscale" "grayscale(1)"))
  /\ (selectedFilter
        (hooks (run sample_image
                  (run sample_image initial_world [Click (filter_option 1)])
                  [Click download_button; Click (filter_option 2)]))
      = mkFilter "Grayscale" "grayscale(1)"
      /\ exports
           (log (run sample_image
                   (run sample_image initial_world [Click (filter_option 1)])
                   ([Click download_button; Click (filter_option 2)]
                    ++ map Click [download_button; filter_option 4]
                    ++ [Settle (nextPromise
                                  (run sample_image initial_world
                                     [Click (filter_option 1)])) Resolved])))
         = exports (log (run sample_image initial_world [Click (filter_option 1)]))
           ++ [(decade sample_image, url sample_image,
                css (selectedFilter
                       (hooks (run sample_image initial_world
                                 [Click (filter_option 1)]))))]).
Proof.
  split.
  - split; reflexivity.
  - apply (export_snapshot sample_image [Click (filter_option 1)]
             [download_button; filter_option 4] 2
             (mkFilter "Grayscale" "grayscale(1)") Resolved); reflexivity.
Defined.

(** C6 at work: the first click on Download of a fresh session. *)
Lemma download_invokes_export_witness :
  isDownloading (hooks initial_world) = false
  /\ (log (click sample_image download_button initial_world)
      = log initial_world
        ++ [Did (SetIsDownloading true);
            Called (decade sample_image) (url sample_image)
                   (css (selectedFilter (hooks initial_world)))
                   (nextPromise initial_world);
            Did StopPropagation]
      /\ isDownloading (hooks (click sample_image download_button initial_world)) = true
      /\ pending (click sample_image download_button initial_world)
         = pending initial_world
           ++ [(nextPromise initial_world, handleDownloadClick_resume)]).
Proof.
  split.
  - reflexivity.
  - apply (download_invokes_export sample_image initial_world). reflexivity.
Defined.

(** C7 at work: the Sepia button clicked twice in a fresh session. *)
Lemma select_idempotent_witness :
  nth_error FILTERS 1 = Some (mkFilter "Sepia" "sepia(0.8)")
  /\ hooks (click sample_image (filter_option 1)
              (click sample_image (filter_option 1) initial_world))
     = hooks (click sample_image (filter_option 1) initial_world).
Proof.
  split.
  - reflexivity.
  - destruct (select_idempotent sample_image initial_world 1
                (mkFilter "Sepia" "sepia(0.8)") eq_refl) as (_ & H & _).
    exact H.
Defined.

(** C9, the claim as written fails: the selection handler run for a filter
    that is not in the catalogue neither rejects it nor leaves the selection
    as it was. *)
Lemma foreign_filter_is_stored :
  ~ In foreign_filter FILTERS
  /\ selectedFilter (hooks (exec (setSelectedFilter foreign_filter) initial_world))
     = foreign_filter
  /\ selectedFilter (hooks (exec (setSelectedFilter foreign_filter) initial_world))
     <> selectedFilter (hooks initial_world)
  /\ faults (log (exec (setSelectedFilter foreign_filter) initial_world)) = [].
Proof.
  repeat split.
  - cbn. intros H. repeat (destruct H as [H|H]; [discriminate H|]). exact H.
  - discriminate.
Qed.

(** The guard of C2 is the [disabled] attribute of the button, not the
    handler: [handleDownloadClick] run in a state where [isDownloading] is
    already true calls [onDownload] again. *)
Remark handleDownloadClick_has_no_guard :
  exports
    (log (exec (handleDownloadClick sample_image
                  (hooks (run sample_image initial_world [Click download_button])))
               (run sample_image initial_world [Click download_button])))
  = [("1950s", "blob:generated/1950s.jpg", "none");
     ("1950s", "blob:generated/1950s.jpg", "none")].
Proof. reflexivity. Qed.

(** The scenarios of the specification, run. *)

Example scenario_select :
  name (selectedFilter (hooks initial_world)) = "Original"
  /\ name (selectedFilter
             (hooks (run sample_image initial_world [Click (filter_option 1)])))
     = "Sepia".
Proof. split; reflexivity. Qed.

Example scenario_download_resolves :
  log (run sample_image initial_world
         [Click (filter_option 1); Click download_button; Settle 0 Resolved])
  = [Did (SetSelectedFilter (mkFilter "Sepia" "sepia(0.8)")); Did StopPropagation;
     Did (SetIsDownloading true);
     Called "1950s" "blob:generated/1950s.jpg" "sepia(0.8)" 0;
     Did StopPropagation;
     Did (SetIsDownloading false); Did OnClose].
Proof. reflexivity. Qed.

Example scenario_download_rejects :
  log (run sample_image initial_world
         [Click (filter_option 1); Click download_button; Settle 0 (Rejected "offline")])
  = [Did (SetSelectedFilter (mkFilter "Sepia" "sepia(0.8)")); Did StopPropagation;
     Did (SetIsDownloading true);
     Called "1950s" "blob:generated/1950s.jpg" "sepia(0.8)" 0;
     Did StopPropagation;
     Did (ConsoleError "Download failed from modal:" "offline");
     Did (SetIsDownloading false); Did OnClose].
Proof. reflexivity. Qed.

Example scenario_cancel :
  log (run sample_image initial_world [Click cancel_button])
  = [Did OnClose; Did StopPropagation]
  /\ log (run sample_image initial_world [Click backdrop]) = [Did OnClose]
  /\ log (run sample_image initial_world [Click panel]) = [Did StopPropagation].
Proof. repeat split. Qed.

(** * Further properties of the component *)

Section More.

Variable image : Image.

(** The initial selection is the entry at position 0 of the catalogue. *)
Lemma FILTERS_0_is_first : nth_error FILTERS 0 = Some FILTERS_0.
Proof. reflexivity. Qed.

(** [view] and [render] are the same tree. *)
Lemma erase_view (r : Hooks) : erase (view image r) = render image r.
Proof. destruct r as [sf [|]]; reflexivity. Qed.

(** Case analysis on the position of a click. *)
Ltac split_click :=
  repeat (cbn; match goal with
    | |- context [nth_error _ ?i] => is_var i; destruct i
    | |- context [listeners ?p _] => is_var p; destruct p
    end).

(** What a click does, wherever it lands, to each observable. *)
Lemma click_effect (path : list nat) (w : World) :
  closes (log (click image path w))
  = closes (log w) + (if closing_click path then 1 else 0)
  /\ exports (log (click image path w))
     = exports (log w)
       ++ (if path_eqb path download_button && negb (isDownloading (hooks w))
           then [(decade image, url image, css (selectedFilter (hooks w)))]
           else [])
  /\ selectedFilter (hooks (click image path w))
     = match selected_by path with
       | Some g => g
       | None => selectedFilter (hooks w)
       end
  /\ isDownloading (hooks (click image path w))
     = isDownloading (hooks w) || path_eqb path download_button.
Proof.
  unfold click, render.
  destruct w as [[sf dl] pd np ps lg].
  split_click.
  all: try destruct dl.
  all: cbn -[closes exports]; rewrite ?closes_app, ?exports_app; cbn.
  all: rewrite ?app_nil_r, ?Nat.add_0_r.
  all: try (repeat split; reflexivity).
  all: repeat match goal with
         | |- context [match ?p with [] => _ | _ :: _ => _ end] => is_var p; destruct p
         | |- context [match ?n with O => _ | S _ => _ end] => is_var n; destruct n
         end.
  all: repeat split; reflexivity.
Qed.

(** The settling of a promise either finds no handler awaiting it, or resumes
    the one suspended [handleDownloadClick]. *)
Lemma settle_cases (p : Promise) (o : Outcome) (w : World) :
  Inv w ->
  settle p o w = w
  \/ (isDownloading (hooks w) = true
      /\ pending w = [(p, handleDownloadClick_resume)]
      /\ settle p o w = exec (handleDownloadClick_resume o) (set_pending [] w)).
Proof.
  intros (_ & _ & Hp).
  destruct (pending w) as [|[q k] [|]] eqn:E; try tauto.
  - left. now apply settle_idle.
  - destruct Hp as [Hd ->]. destruct (Nat.eq_dec q p) as [->|Hne].
    + right. repeat split; auto. now apply settle_awaited.
    + left. now apply (settle_other _ _ _ _ _ E).
Qed.

Lemma settle_frame (p : Promise) (o : Outcome) (w : World) :
  Inv w ->
  selectedFilter (hooks (settle p o w)) = selectedFilter (hooks w)
  /\ exports (log (settle p o w)) = exports (log w).
Proof.
  intros HI. destruct (settle_cases p o w HI) as [->|(_ & _ & ->)]; auto.
  rewrite exec_resume. cbn [hooks log selectedFilter set_pending].
  rewrite !exports_app. destruct o; cbn; rewrite app_nil_r; auto.
Qed.

Lemma busy_flags_app (l1 l2 : list Effect) :
  busy_flags (l1 ++ l2) = busy_flags l1 ++ busy_flags l2.
Proof. apply flat_map_app. Qed.

Lemma on_off_S (n : nat) : on_off (S n) = on_off n ++ [true; false].
Proof.
  unfold on_off. cbn [repeat]. rewrite repeat_cons, concat_app. reflexivity.
Qed.

(** X1. A click invokes [onClose] once when it lands on the backdrop itself
    or on the Cancel button, and not at all anywhere else: the panel stops
    the propagation of every click inside it, so the backdrop's listener
    never runs for them and Cancel closes once, not twice. *)
Theorem click_close_count (path : list nat) (w : World) :
  closes (log (click image path w))
  = closes (log w) + (if closing_click path then 1 else 0).
Proof. apply click_effect. Qed.

(** X2. A click on Cancel or on the backdrop cancels nothing: both state
    cells, the suspended handler of an export in flight and the calls of
    [onDownload] are as before. *)
Theorem closing_click_keeps_export (path : list nat) (w : World) :
  closing_click path = true ->
  hooks (click image path w) = hooks w
  /\ pending (click image path w) = pending w
  /\ nextPromise (click image path w) = nextPromise w
  /\ exports (log (click image path w)) = exports (log w).
Proof.
  intros Hc. destruct (click_classify image path w) as (k & -> & Hk & _).
  rewrite Hc in Hk. destruct w as [[sf dl] pd np ps lg].
  destruct k; try discriminate Hk; cbn -[exports];
    rewrite ?exports_app; cbn; rewrite ?app_nil_r; auto.
Qed.

(** X3. A click calls [onDownload] exactly when it lands on the Download
    button while [isDownloading] is false, then once and with the image of
    the presentation and the transform of the selection; and only a click on
    the Download button can raise [isDownloading]. *)
Theorem click_starts_export (path : list nat) (w : World) :
  exports (log (click image path w))
  = exports (log w)
    ++ (if path_eqb path download_button && negb (isDownloading (hooks w))
        then [(decade image, url image, css (selectedFilter (hooks w)))]
        else [])
  /\ isDownloading (hooks (click image path w))
     = isDownloading (hooks w) || path_eqb path download_button.
Proof.
  destruct (click_effect path w) as (_ & H2 & _ & H4). auto.
Qed.

Lemma exports_ok_step (ev : Event) (w : World) :
  Inv w -> Forall (export_ok image) (exports (log w)) ->
  Forall (export_ok image) (exports (log (step image w ev))).
Proof.
  intros HI HF. destruct ev as [path|p o]; cbn [step].
  - destruct (click_effect path w) as (_ & -> & _).
    apply Forall_app. split; [exact HF|].
    destruct (path_eqb path download_button && negb (isDownloading (hooks w)));
      constructor; [|constructor].
    repeat split. cbn [snd]. apply in_map, HI.
  - now rewrite (proj2 (settle_frame p o w HI)).
Qed.

(** X4. Every call of [onDownload] a session ever makes carries the decade
    and the url of the presentation's image and the transform of an entry of
    the catalogue. *)
Theorem exports_well_formed (evs : list Event) :
  Forall (export_ok image) (exports (log (run image initial_world evs))).
Proof.
  assert (G : forall w, Inv w -> Forall (export_ok image) (exports (log w)) ->
                        Forall (export_ok image) (exports (log (run image w evs)))).
  { induction evs as [|ev evs IH]; intros w HI HF; cbn; [exact HF|].
    apply IH; [apply Inv_step, HI | apply exports_ok_step; assumption]. }
  apply G; [apply Inv_initial | constructor].
Qed.

Lemma console_error_step (ev : Event) (w : World) (msg : string) (e : Reason) :
  Inv w ->
  In (Did (ConsoleError msg e)) (log (step image w ev)) ->
  In (Did (ConsoleError msg e)) (log w)
  \/ (msg = "Download failed from modal:" /\ exists p, ev = Settle p (Rejected e)).
Proof.
  intros HI Hin. destruct ev as [path|p o]; cbn [step] in Hin.
  - left. destruct (click_classify image path w) as (k & E & _ & _).
    rewrite E in Hin. clear E. destruct w as [[sf dl] pd np ps lg].
    destruct k; [ | | | | | destruct dl]; cbn in Hin;
      repeat (apply in_app_or in Hin; destruct Hin as [Hin|Hin]);
      auto; cbn in Hin; intuition discriminate.
  - destruct (settle_cases p o w HI) as [E|(_ & _ & E)]; rewrite E in Hin; auto.
    rewrite exec_resume in Hin. cbn [log set_pending] in Hin.
    apply in_app_or in Hin. destruct Hin as [Hin|Hin]; auto.
    destruct o as [|e']; cbn in Hin.
    + intuition discriminate.
    + destruct Hin as [Hin|Hin]; [|intuition discriminate].
      injection Hin as <- <-. right. eauto.
Qed.

(** X5. [console.error] is called only from the [catch] block: every call in
    the log has the message of the source and, as its second argument, the
    reason of a rejection the export delivered. *)
Theorem console_error_only_on_rejection
  (evs : list Event) (msg : string) (e : Reason) :
  In (Did (ConsoleError msg e)) (log (run image initial_world evs)) ->
  msg = "Download failed from modal:"
  /\ exists p, In (Settle p (Rejected e)) evs.
Proof.
  assert (G : forall w, Inv w ->
            In (Did (ConsoleError msg e)) (log (run image w evs)) ->
            In (Did (ConsoleError msg e)) (log w)
            \/ (msg = "Download failed from modal:"
                /\ exists p, In (Settle p (Rejected e)) evs)).
  { induction evs as [|ev evs IH]; intros w HI Hin; cbn in Hin; auto.
    destruct (IH _ (Inv_step image ev w HI) Hin) as [H|(Hm & p & Hp)].
    - destruct (console_error_step ev w msg e HI H) as [H'|(Hm & p & ->)]; auto.
      right. split; auto. exists p. now left.
    - right. split; auto. exists p. now right. }
  intros Hin. destruct (G _ Inv_initial Hin) as [[]|H]. exact H.
Qed.

Lemma selection_run (evs : list Event) (w : World) :
  Inv w ->
  selectedFilter (hooks (run image w evs))
  = last_selected (selectedFilter (hooks w)) evs.
Proof.
  revert w. induction evs as [|ev evs IH]; intros w HI; [reflexivity|].
  cbn [run fold_left last_selected].
  change (fold_left (step image) evs (step image w ev))
    with (run image (step image w ev) evs).
  rewrite (IH _ (Inv_step image ev w HI)). unfold last_selected. f_equal.
  destruct ev as [path|p o]; cbn [step].
  - apply click_effect.
  - apply settle_frame, HI.
Qed.

(** X6. The selection of a session is decided by its clicks on option
    buttons alone: it is the entry of the last option button clicked (on the
    button, its thumbnail or its label), and the first catalogue entry while
    none has been; downloads, cancels and the outcomes of exports never
    change it. *)
Theorem selection_follows_clicks (evs : list Event) :
  selectedFilter (hooks (run image initial_world evs))
  = last_selected FILTERS_0 evs.
Proof. apply (selection_run evs initial_world Inv_initial). Qed.

Lemma busy_step (ev : Event) (w : World) (n : nat) :
  Inv w ->
  length (exports (log w)) = n + length (pending w) ->
  busy_flags (log w) = on_off n ++ (if isDownloading (hooks w) then [true] else []) ->
  exists m,
    length (exports (log (step image w ev))) = m + length (pending (step image w ev))
    /\ busy_flags (log (step image w ev))
       = on_off m ++ (if isDownloading (hooks (step image w ev)) then [true] else []).
Proof.
  intros HI He Hb. destruct ev as [path|p o]; cbn [step].
  - destruct (click_classify image path w) as (k & -> & _ & _).
    destruct HI as (_ & _ & Hp). destruct w as [[sf dl] pd np ps lg].
    cbn [hooks pending log isDownloading] in *.
    exists n.
    destruct k; [ | | | | | destruct dl];
      cbn -[exports busy_flags on_off];
      rewrite ?exports_app, ?busy_flags_app, ?length_app, ?Hb, ?He; cbn -[on_off];
      rewrite ?app_nil_r, ?Nat.add_0_r; auto.
    split; [lia|reflexivity].
  - destruct (settle_cases p o w HI) as [->|(Hd & Hp & ->)]; [eauto|].
    rewrite exec_resume. cbn [hooks pending log isDownloading set_pending].
    exists (S n). rewrite Hp in He. rewrite Hd in Hb.
    rewrite !exports_app, !busy_flags_app, Hb, on_off_S, !length_app, He.
    destruct o; cbn -[on_off]; rewrite ?app_nil_r, <- ?app_assoc; split;
      solve [lia | reflexivity].
Qed.

(** X7. [setIsDownloading] is called with true and false in strict
    alternation, starting with true: in every reachable state the calls so
    far are one on/off pair for each export that has settled, followed by a
    single true exactly when [isDownloading] is true. *)
Theorem busy_flags_alternate (evs : list Event) :
  busy_flags (log (run image initial_world evs))
  = on_off (length (exports (log (run image initial_world evs)))
            - length (pending (run image initial_world evs)))
    ++ (if isDownloading (hooks (run image initial_world evs)) then [true] else []).
Proof.
  assert (G : forall w n, Inv w ->
            length (exports (log w)) = n + length (pending w) ->
            busy_flags (log w)
            = on_off n ++ (if isDownloading (hooks w) then [true] else []) ->
            exists m,
              length (exports (log (run image w evs)))
              = m + length (pending (run image w evs))
              /\ busy_flags (log (run image w evs))
                 = on_off m
                   ++ (if isDownloading (hooks (run image w evs)) then [true] else [])).
  { induction evs as [|ev evs IH]; intros w n HI He Hb; cbn; [eauto|].
    destruct (busy_step ev w n HI He Hb) as (m & He' & Hb').
    apply (IH _ m); auto using Inv_step. }
  destruct (G initial_world 0 Inv_initial eq_refl eq_refl) as (m & He & Hb).
  rewrite Hb, He. f_equal. f_equal. lia.
Qed.

(** X8. The Download button shows what is going on: in every reachable state
    it is disabled and labelled Downloading... exactly while a
    [handleDownloadClick] is suspended on an export, and enabled and
    labelled Download otherwise. *)
Theorem download_button_shows_in_flight (evs : list Event) :
  node_at download_button (view image (hooks (run image initial_world evs)))
  = Some (Nd "button"
            [("disabled", string_of_bool (in_flight_now (run image initial_world evs)))]
            (if in_flight_now (run image initial_world evs)
             then "Downloading..." else "Download")
            (Some (handleDownloadClick image (hooks (run image initial_world evs))))
            []).
Proof.
  pose proof (Inv_reachable image evs) as (_ & _ & Hp).
  unfold in_flight_now.
  destruct (pending (run image initial_world evs)) as [|[q k] [|]]; try tauto;
    [|destruct Hp as [Hp _]]; cbn; rewrite Hp; reflexivity.
Qed.

(** X9. What is exported is what is previewed: a click on the Download
    button, with [isDownloading] false, calls [onDownload] with the [src] of
    the preview image as the url and with its [style.filter] as the
    transform. *)
Theorem export_matches_preview (w : World) :
  isDownloading (hooks w) = false ->
  exists (n : Node) (u c : string),
    node_at preview_image (view image (hooks w)) = Some n
    /\ attr "src" n = Some u
    /\ attr "style.filter" n = Some c
    /\ exports (log (click image download_button w))
       = exports (log w) ++ [(decade image, u, c)].
Proof.
  intros Hd. eexists _, _, _.
  split; [reflexivity|]. split; [reflexivity|]. split; [reflexivity|].
  destruct (click_effect download_button w) as (_ & -> & _). now rewrite Hd.
Qed.

(** X10. In every reachable state exactly one option button is shown as
    pressed, with the yellow ring, and it is the button of the selected
    filter. *)
Theorem one_option_pressed (evs : list Event) :
  map (fun n => (attr "key" n, attr "className" n))
      (pressed_options (view image (hooks (run image initial_world evs))))
  = [ (Some (name (selectedFilter (hooks (run image initial_world evs)))),
       Some "aspect-square w-full flex flex-col items-center justify-end p-2 rounded-md transition-all duration-200 focus:outline-none ring-2 ring-yellow-400") ].
Proof.
  pose proof (Inv_reachable image evs) as (Hin & _).
  destruct (hooks (run image initial_world evs)) as [sf dl].
  cbn [selectedFilter] in *. unfold FILTERS in Hin. cbn [In] in Hin.
  repeat (destruct Hin as [<-|Hin]; [reflexivity|]). destruct Hin.
Qed.

(** X11. No session ever lets a fault escape a handler: whatever the user
    clicks and however the exports end, rejections included, the log holds
    no unhandled rejection. *)
Theorem no_fault_escapes (evs : list Event) :
  faults (log (run image initial_world evs)) = [].
Proof. apply (Inv_reachable image evs). Qed.

End More.

(** X2 at work: Cancel clicked while an export is in flight. *)
Lemma closing_click_keeps_export_witness :
  closing_click cancel_button = true
  /\ pending (click sample_image cancel_button
                (run sample_image initial_world [Click download_button]))
     = [(0, handleDownloadClick_resume)].
Proof.
  split.
  - reflexivity.
  - destruct (closing_click_keeps_export sample_image cancel_button
                (run sample_image initial_world [Click download_button]) eq_refl)
      as (_ & H & _).
    exact H.
Defined.

(** X5 at work: an export that rejects. *)
Lemma console_error_only_on_rejection_witness :
  In (Did (ConsoleError "Download failed from modal:" "offline"))
     (log (run sample_image initial_world
             [Click download_button; Settle 0 (Rejected "offline")]))
  /\ ("Download failed from modal:" = "Download failed from modal:"
      /\ exists p, In (Settle p (Rejected "offline"))
                      [Click download_button; Settle 0 (Rejected "offline")]).
Proof.
  split.
  - cbn. auto.
  - apply (console_error_only_on_rejection sample_image
             [Click download_button; Settle 0 (Rejected "offline")]).
    cbn. auto.
Defined.

(** X9 at work: Vintage is selected, then Download is clicked. *)
Lemma export_matches_preview_witness :
  isDownloading
    (hooks (run sample_image initial_world [Click (filter_option 3)])) = false
  /\ exists (n : Node) (u c : string),
       node_at preview_image
         (view sample_image
            (hooks (run sample_image initial_world [Click (filter_option 3)])))
       = Some n
       /\ attr "src" n = Some u
       /\ attr "style.filter" n = Some c
       /\ exports (log (click sample_image download_button
                          (run sample_image initial_world [Click (filter_option 3)])))
          = exports (log (run sample_image initial_world [Click (filter_option 3)]))
            ++ [(decade sample_image, u, c)].
Proof.
  split.
  - reflexivity.
  - apply (export_matches_preview sample_image
             (run sample_image initial_world [Click (filter_option 3)])).
    reflexivity.
Defined.
